(** * clone-user.py: a shallow embedding and its specification

    The script [linux/user-management/clone-user.py] creates a new account
    that is a member of the same supplementary groups as a reference
    account.  It is one straight-line procedure over the platform's account
    and group directories, the standard streams and one shell command.

    The embedding follows the script top to bottom:
    - [passwd] and [group] are the records of Python's [pwd] and [grp];
    - [world] is what the script reads and changes outside itself;
    - [globals] holds the module-level variables the script binds;
    - [Py] is a small monad threading both, recording every interaction
      in a trace and stopping at [sys.exit] or at an uncaught exception;
    - [main] is the script's body, statement for statement.

    Strings are byte strings; argument parsing ([argparse]) happens before
    [main] and is represented by its result, the record [Args]. *)

From Stdlib Require Import String Ascii List ZArith Bool Lia.
Import ListNotations.
Local Open Scope string_scope.
Local Open Scope Z_scope.

(** ** Strings *)

(** The line feed, written ['\n'] in the script. *)
Definition nl : string := String "010"%char EmptyString.

(** The double-quote character the script wraps the full name in. *)
Definition dquote : string := String "034"%char EmptyString.

(** [sep.join(l)] *)
Definition join (sep : string) (l : list string) : string :=
  String.concat sep l.

(** [x in l] for a list of strings. *)
Definition str_in (x : string) (l : list string) : bool :=
  existsb (String.eqb x) l.

(** [str.lower], on the ASCII range. *)
Definition lower_ascii (c : ascii) : ascii :=
  let n := nat_of_ascii c in
  if (Nat.leb 65 n && Nat.leb n 90)%bool then ascii_of_nat (n + 32) else c.

Fixpoint lower (s : string) : string :=
  match s with
  | EmptyString => EmptyString
  | String c r => String (lower_ascii c) (lower r)
  end.

(** ** The platform directories *)

(** [pwd.struct_passwd] *)
Record passwd := {
  pw_name : string;
  pw_passwd : string;
  pw_uid : Z;
  pw_gid : Z;
  pw_gecos : string;
  pw_dir : string;
  pw_shell : string
}.

(** [grp.struct_group] *)
Record group := {
  gr_name : string;
  gr_passwd : string;
  gr_gid : Z;
  gr_mem : list string
}.

(** The parsed command line: [-c], [-n] and the optional [-fn]. *)
Record Args := {
  clone_user : string;
  new_user : string;
  full_name : option string
}.

(** ** Group derivation

    <<
    clone_groups = []
    for group in grp.getgrall():
        if clone_user.pw_name in group.gr_mem and not clone_user.pw_name == group.gr_name:
            clone_groups.append(group.gr_name)
    >> *)

Definition keeps (u : passwd) (g : group) : bool :=
  str_in (pw_name u) (gr_mem g) && negb (String.eqb (pw_name u) (gr_name g)).

Definition loop_body (u : passwd) (acc : list string) (g : group) : list string :=
  if keeps u g then acc ++ [gr_name g] else acc.

Definition derive_groups (u : passwd) (gs : list group) : list string :=
  fold_left (loop_body u) gs [].

(** ** Command construction

    <<
    cmd = ['useradd', '--shell', clone_user.pw_shell, '--create-home',
           '--user-group', '--groups', ','.join(clone_groups), args.new_user]
    if args.full_name:
        cmd.append('--comment')
        cmd.append('"' + args.full_name + '"')
    >> *)

Definition base_cmd (u : passwd) (clone_groups : list string) (target : string)
  : list string :=
  [ "useradd"; "--shell"; pw_shell u; "--create-home"; "--user-group";
    "--groups"; join "," clone_groups; target ].

(** Truth value of [args.full_name]: [None] and the empty string are false. *)
Definition truthy (o : option string) : bool :=
  match o with
  | None => false
  | Some EmptyString => false
  | Some (String _ _) => true
  end.

(** The text of [args.full_name] where it is a string. *)
Definition text (o : option string) : string :=
  match o with
  | Some n => n
  | None => EmptyString
  end.

(** ['"' + s + '"'] *)
Definition quoted (s : string) : string := (dquote ++ s) ++ dquote.

Definition comment_args (o : option string) : list string :=
  if truthy o then [ "--comment"; quoted (text o) ] else [].

Definition build_cmd (a : Args) (u : passwd) (clone_groups : list string)
  : list string :=
  base_cmd u clone_groups (new_user a) ++ comment_args (full_name a).

(** [flag_value f v cmd]: somewhere in [cmd] the argument [f] is directly
    followed by the argument [v]. *)
Fixpoint flag_value (f v : string) (cmd : list string) : bool :=
  match cmd with
  | x :: ((y :: _) as rest) =>
      (String.eqb x f && String.eqb y v) || flag_value f v rest
  | _ => false
  end.

(** [has_flag f cmd]: the argument [f] occurs in [cmd]. *)
Definition has_flag (f : string) (cmd : list string) : bool := str_in f cmd.

(** ** The world outside the script *)

(** Everything the script reads or changes: the effective user id, the two
    directories, the lines waiting on standard input, and what a shell
    command does to the account directory (the creation facility is an
    external collaborator, so any behaviour is allowed). *)
Record world := {
  euid : Z;
  passwd_db : list passwd;
  group_db : list group;
  stdin : list string;
  shell : string -> list passwd -> list passwd
}.

(** The module-level variables of the script; [None] is "not bound yet". *)
Record globals := {
  v_clone_user : option passwd;
  v_new_user : option passwd;
  v_clone_groups : option (list string);
  v_cmd : option (list string);
  v_choice : option string
}.

Definition unbound : globals :=
  {| v_clone_user := None; v_new_user := None; v_clone_groups := None;
     v_cmd := None; v_choice := None |}.

(** One interaction of the script with its environment. *)
Inductive event :=
| Geteuid (r : Z)
| Getpwnam (name : string) (r : option passwd)
| Getgrall (r : list group)
| Stderr (s : string)
| Stdout (s : string)
| Input (prompt : string) (r : option string)
| System (cmd : string).

Inductive exn := EOFError.

(** How a computation stops: normally, at [sys.exit], or on an exception
    nobody catches. *)
Inductive result (A : Type) :=
| Done (a : A)
| SysExit (status : Z)
| Uncaught (e : exn).
Arguments Done {A} a.
Arguments SysExit {A} status.
Arguments Uncaught {A} e.

Record config := { the_world : world; the_globals : globals }.

(** ** The monad of the script *)

Module Py.

Definition t (A : Type) : Type := config -> result A * config * list event.

Definition ret {A} (a : A) : t A := fun c => (Done a, c, []).

Definition bind {A B} (m : t A) (k : A -> t B) : t B :=
  fun c =>
    match m c with
    | (Done a, c1, tr1) =>
        let '(r, c2, tr2) := k a c1 in (r, c2, (tr1 ++ tr2)%list)
    | (SysExit n, c1, tr1) => (SysExit n, c1, tr1)
    | (Uncaught e, c1, tr1) => (Uncaught e, c1, tr1)
    end.

Definition emit (e : event) : t unit := fun c => (Done tt, c, [e]).

Definition world_of : t world := fun c => (Done (the_world c), c, []).

Definition vars : t globals := fun c => (Done (the_globals c), c, []).

Definition set_world (w : world) : t unit :=
  fun c => (Done tt, {| the_world := w; the_globals := the_globals c |}, []).

Definition set_vars (g : globals) : t unit :=
  fun c => (Done tt, {| the_world := the_world c; the_globals := g |}, []).

Definition exit {A} (n : Z) : t A := fun c => (SysExit n, c, []).

Definition raise {A} (e : exn) : t A := fun c => (Uncaught e, c, []).

End Py.

Notation "x <- m ;; k" := (Py.bind m (fun x => k))
  (at level 61, m at next level, right associativity).
Notation "m ;; k" := (Py.bind m (fun _ => k))
  (at level 61, right associativity).

(** ** The primitives the script calls *)

(** [os.geteuid()] *)
Definition os_geteuid : Py.t Z :=
  w <- Py.world_of ;;
  Py.emit (Geteuid (euid w)) ;;
  Py.ret (euid w).

(** The account directory is searched front to back for the first record of
    that name. *)
Definition lookup (name : string) (db : list passwd) : option passwd :=
  find (fun p => String.eqb (pw_name p) name) db.

(** [pwd.getpwnam(name)]; [None] stands for the [KeyError] it raises, which
    both call sites catch at once. *)
Definition pwd_getpwnam (name : string) : Py.t (option passwd) :=
  w <- Py.world_of ;;
  Py.emit (Getpwnam name (lookup name (passwd_db w))) ;;
  Py.ret (lookup name (passwd_db w)).

(** [grp.getgrall()] *)
Definition grp_getgrall : Py.t (list group) :=
  w <- Py.world_of ;;
  Py.emit (Getgrall (group_db w)) ;;
  Py.ret (group_db w).

(** [sys.stderr.write(s)] *)
Definition stderr_write (s : string) : Py.t unit := Py.emit (Stderr s).

(** What [print(s)] writes: the text and a line feed. *)
Definition printed (s : string) : string := s ++ nl.

(** [print(s)], on standard output. *)
Definition print (s : string) : Py.t unit := Py.emit (Stdout (printed s)).

(** [sys.exit(n)] *)
Definition sys_exit {A} (n : Z) : Py.t A := Py.exit n.

(** [input(prompt)]: shows the prompt and takes the next line of standard
    input; at end of input it raises [EOFError]. *)
Definition input (prompt : string) : Py.t string :=
  w <- Py.world_of ;;
  match stdin w with
  | line :: rest =>
      Py.emit (Input prompt (Some line)) ;;
      Py.set_world {| euid := euid w; passwd_db := passwd_db w;
                      group_db := group_db w; stdin := rest;
                      shell := shell w |} ;;
      Py.ret line
  | [] =>
      Py.emit (Input prompt None) ;;
      Py.raise EOFError
  end.

(** [os.system(line)]: the shell runs the line; the script ignores the
    status it returns. *)
Definition os_system (line : string) : Py.t unit :=
  w <- Py.world_of ;;
  Py.emit (System line) ;;
  Py.set_world {| euid := euid w; passwd_db := shell w line (passwd_db w);
                  group_db := group_db w; stdin := stdin w;
                  shell := shell w |}.

(** Assignments to the module-level variables. *)
Definition assign_clone_user (u : passwd) : Py.t unit :=
  g <- Py.vars ;;
  Py.set_vars {| v_clone_user := Some u; v_new_user := v_new_user g;
                 v_clone_groups := v_clone_groups g; v_cmd := v_cmd g;
                 v_choice := v_choice g |}.

Definition assign_new_user (u : passwd) : Py.t unit :=
  g <- Py.vars ;;
  Py.set_vars {| v_clone_user := v_clone_user g; v_new_user := Some u;
                 v_clone_groups := v_clone_groups g; v_cmd := v_cmd g;
                 v_choice := v_choice g |}.

Definition assign_clone_groups (l : list string) : Py.t unit :=
  g <- Py.vars ;;
  Py.set_vars {| v_clone_user := v_clone_user g; v_new_user := v_new_user g;
                 v_clone_groups := Some l; v_cmd := v_cmd g;
                 v_choice := v_choice g |}.

Definition assign_cmd (l : list string) : Py.t unit :=
  g <- Py.vars ;;
  Py.set_vars {| v_clone_user := v_clone_user g; v_new_user := v_new_user g;
                 v_clone_groups := v_clone_groups g; v_cmd := Some l;
                 v_choice := v_choice g |}.

Definition assign_choice (s : string) : Py.t unit :=
  g <- Py.vars ;;
  Py.set_vars {| v_clone_user := v_clone_user g; v_new_user := v_new_user g;
                 v_clone_groups := v_clone_groups g; v_cmd := v_cmd g;
                 v_choice := Some s |}.

(** [cmd.append(x)] *)
Definition cmd_append (x : string) : Py.t unit :=
  g <- Py.vars ;;
  match v_cmd g with
  | Some l => assign_cmd (l ++ [x])
  | None => Py.ret tt
  end.

(** The current value of [cmd]. *)
Definition read_cmd : Py.t (list string) :=
  g <- Py.vars ;;
  Py.ret (match v_cmd g with Some l => l | None => [] end).

(** ** The script *)

Definition msg_privilege : string := "Insufficient privelege!" ++ nl.
Definition msg_no_source (name : string) : string :=
  "Unable to find clone source user [" ++ name ++ "]!" ++ nl.
Definition msg_exists (name : string) : string :=
  "New user [" ++ name ++ "] already exists!" ++ nl.
Definition msg_command (line : string) : string :=
  "Command to run:" ++ nl ++ "    " ++ line ++ nl.
Definition msg_prompt : string := "Shall we proceed? [y/n]".
Definition msg_cancelled : string := "Operation cancelled.".
Definition msg_created (name : string) : string :=
  "User [" ++ name ++ "] has been successfully created.".
Definition msg_failed (name : string) : string :=
  "Failed to create user [" ++ name ++ "]!".

(** [choice.lower() in ['y', 'yes']] *)
Definition affirmative (choice : string) : bool :=
  str_in (lower choice) [ "y"; "yes" ].

Definition main (args : Args) : Py.t unit :=
  (* Verify the script is called with privilege *)
  id <- os_geteuid ;;
  (if negb (id =? 0)
   then stderr_write msg_privilege ;; sys_exit 1
   else Py.ret tt) ;;
  (* Check that the clone reference user exists *)
  found <- pwd_getpwnam (clone_user args) ;;
  src <- match found with
         | Some u => assign_clone_user u ;; Py.ret u
         | None => stderr_write (msg_no_source (clone_user args)) ;; sys_exit 1
         end ;;
  (* Check that the new user does not exist *)
  found <- pwd_getpwnam (new_user args) ;;
  match found with
  | Some u =>
      assign_new_user u ;;
      stderr_write (msg_exists (new_user args)) ;;
      sys_exit 1
  | None => Py.ret tt
  end ;;
  (* Get all the groups the clone user is in *)
  all <- grp_getgrall ;;
  let clone_groups := derive_groups src all in
  assign_clone_groups clone_groups ;;
  (* Call adduser to get the job done *)
  assign_cmd (base_cmd src clone_groups (new_user args)) ;;
  (if truthy (full_name args)
   then cmd_append "--comment" ;;
        cmd_append (quoted (text (full_name args)))
   else Py.ret tt) ;;
  cmd <- read_cmd ;;
  print (msg_command (join " " cmd)) ;;
  choice <- input msg_prompt ;;
  assign_choice choice ;;
  (if negb (affirmative choice)
   then print msg_cancelled ;; sys_exit 0
   else Py.ret tt) ;;
  os_system (join " " cmd) ;;
  found <- pwd_getpwnam (new_user args) ;;
  match found with
  | Some u => assign_new_user u ;; print (msg_created (pw_name u))
  | None => print (msg_failed (new_user args)) ;; sys_exit 1
  end ;;
  sys_exit 0.

(** ** Running the script *)

Record run_result := {
  outcome : result unit;
  final : config;
  trace : list event
}.

Definition run (args : Args) (w : world) : run_result :=
  let '(r, c, tr) := main args {| the_world := w; the_globals := unbound |} in
  {| outcome := r; final := c; trace := tr |}.

(** The status the process ends with: the argument of [sys.exit], 1 after
    an uncaught exception, 0 when the script runs off its end. *)
Definition exit_status (r : run_result) : Z :=
  match outcome r with
  | Done _ => 0
  | SysExit n => n
  | Uncaught _ => 1
  end.

(** What was written on each stream, in order. *)
Fixpoint stderr_of (tr : list event) : list string :=
  match tr with
  | [] => []
  | Stderr s :: r => s :: stderr_of r
  | _ :: r => stderr_of r
  end.

Fixpoint stdout_of (tr : list event) : list string :=
  match tr with
  | [] => []
  | Stdout s :: r => s :: stdout_of r
  | _ :: r => stdout_of r
  end.

(** The command the run built: the value of [cmd] when the script stops. *)
Definition built_cmd (r : run_result) : option (list string) :=
  v_cmd (the_globals (final r)).

(** The groups the run derived: the value of [clone_groups] at the end. *)
Definition derived (r : run_result) : option (list string) :=
  v_clone_groups (the_globals (final r)).

Definition is_lookup (e : event) : bool :=
  match e with
  | Getpwnam _ _ | Getgrall _ => true
  | _ => false
  end.

Definition is_system (e : event) : bool :=
  match e with System _ => true | _ => false end.

Definition is_input (e : event) : bool :=
  match e with Input _ _ => true | _ => false end.

Definition is_getgrall (e : event) : bool :=
  match e with Getgrall _ => true | _ => false end.

(** ** The shapes a run can take

    The script is a straight line with early exits, so a run is one of
    seven shapes, told apart by what the environment answers. *)

Definition start (w : world) : config :=
  {| the_world := w; the_globals := unbound |}.

(** The variables once the command is built. *)
Definition vars_built (a : Args) (u : passwd) (gs : list group)
    (choice : option string) (created : option passwd) : globals :=
  {| v_clone_user := Some u; v_new_user := created;
     v_clone_groups := Some (derive_groups u gs);
     v_cmd := Some (build_cmd a u (derive_groups u gs));
     v_choice := choice |}.

(** The line shown to the operator and handed to the shell. *)
Definition command_line (a : Args) (u : passwd) (gs : list group) : string :=
  join " " (build_cmd a u (derive_groups u gs)).

(** What every run that builds the command does up to the prompt. *)
Definition prelude (a : Args) (u : passwd) (w : world) : list event :=
  [ Geteuid 0;
    Getpwnam (clone_user a) (Some u);
    Getpwnam (new_user a) None;
    Getgrall (group_db w);
    Stdout (printed (msg_command (command_line a u (group_db w)))) ].

Definition read_line (w : world) (rest : list string) : world :=
  {| euid := euid w; passwd_db := passwd_db w; group_db := group_db w;
     stdin := rest; shell := shell w |}.

Definition shell_ran (w : world) (line : string) : world :=
  {| euid := euid w; passwd_db := shell w line (passwd_db w);
     group_db := group_db w; stdin := stdin w; shell := shell w |}.

(** The three validation gates in front of the group derivation. *)
Definition gates_passed (a : Args) (w : world) (u : passwd) : Prop :=
  euid w = 0 /\
  lookup (clone_user a) (passwd_db w) = Some u /\
  lookup (new_user a) (passwd_db w) = None.

Inductive Runs (a : Args) (w : world) : run_result -> Prop :=
| R_unprivileged :
    euid w <> 0 ->
    Runs a w {| outcome := SysExit 1; final := start w;
                trace := [ Geteuid (euid w); Stderr msg_privilege ] |}
| R_no_source :
    euid w = 0 ->
    lookup (clone_user a) (passwd_db w) = None ->
    Runs a w {| outcome := SysExit 1; final := start w;
                trace := [ Geteuid 0;
                           Getpwnam (clone_user a) None;
                           Stderr (msg_no_source (clone_user a)) ] |}
| R_target_exists u v :
    euid w = 0 ->
    lookup (clone_user a) (passwd_db w) = Some u ->
    lookup (new_user a) (passwd_db w) = Some v ->
    Runs a w {| outcome := SysExit 1;
                final := {| the_world := w;
                            the_globals :=
                              {| v_clone_user := Some u; v_new_user := Some v;
                                 v_clone_groups := None; v_cmd := None;
                                 v_choice := None |} |};
                trace := [ Geteuid 0;
                           Getpwnam (clone_user a) (Some u);
                           Getpwnam (new_user a) (Some v);
                           Stderr (msg_exists (new_user a)) ] |}
| R_end_of_input u :
    gates_passed a w u ->
    stdin w = [] ->
    Runs a w {| outcome := Uncaught EOFError;
                final := {| the_world := w;
                            the_globals :=
                              vars_built a u (group_db w) None None |};
                trace := prelude a u w ++ [ Input msg_prompt None ] |}
| R_cancelled u choice rest :
    gates_passed a w u ->
    stdin w = choice :: rest ->
    affirmative choice = false ->
    Runs a w {| outcome := SysExit 0;
                final := {| the_world := read_line w rest;
                            the_globals :=
                              vars_built a u (group_db w) (Some choice) None |};
                trace := prelude a u w ++
                         [ Input msg_prompt (Some choice);
                           Stdout (printed msg_cancelled) ] |}
| R_created u choice rest v :
    gates_passed a w u ->
    stdin w = choice :: rest ->
    affirmative choice = true ->
    lookup (new_user a)
      (shell w (command_line a u (group_db w)) (passwd_db w)) = Some v ->
    Runs a w {| outcome := SysExit 0;
                final := {| the_world :=
                              shell_ran (read_line w rest)
                                (command_line a u (group_db w));
                            the_globals :=
                              vars_built a u (group_db w) (Some choice)
                                (Some v) |};
                trace := prelude a u w ++
                         [ Input msg_prompt (Some choice);
                           System (command_line a u (group_db w));
                           Getpwnam (new_user a) (Some v);
                           Stdout (printed (msg_created (pw_name v))) ] |}
| R_failed u choice rest :
    gates_passed a w u ->
    stdin w = choice :: rest ->
    affirmative choice = true ->
    lookup (new_user a)
      (shell w (command_line a u (group_db w)) (passwd_db w)) = None ->
    Runs a w {| outcome := SysExit 1;
                final := {| the_world :=
                              shell_ran (read_line w rest)
                                (command_line a u (group_db w));
                            the_globals :=
                              vars_built a u (group_db w) (Some choice) None |};
                trace := prelude a u w ++
                         [ Input msg_prompt (Some choice);
                           System (command_line a u (group_db w));
                           Getpwnam (new_user a) None;
                           Stdout (printed (msg_failed (new_user a))) ] |}.

(** The spellings of an affirmative answer: "y" or "yes" in any mix of
    upper and lower case. *)
Definition says_yes (choice : string) : Prop :=
  In choice [ "y"; "Y";
              "yes"; "yeS"; "yEs"; "yES"; "Yes"; "YeS"; "YEs"; "YES" ].

(** Fixtures: the reference account of the script's header and a small
    group directory around it. *)
Definition account (name sh : string) : passwd :=
  {| pw_name := name; pw_passwd := "x"; pw_uid := 1000; pw_gid := 1000;
     pw_gecos := EmptyString; pw_dir := "/home/" ++ name; pw_shell := sh |}.

Definition grp_entry (name : string) (gid : Z) (members : list string) : group :=
  {| gr_name := name; gr_passwd := "x"; gr_gid := gid; gr_mem := members |}.

Definition debian : passwd := account "debian" "/bin/bash".

Definition some_groups : list group :=
  [ grp_entry "debian" 1000 [ "debian" ];
    grp_entry "adm" 4 [ "debian" ];
    grp_entry "tty" 5 [ "root" ];
    grp_entry "dialout" 20 [ "root"; "debian" ] ].

(** A directory that lists the group [adm] twice, as happens when two
    sources of group records are merged. *)
Definition doubled_groups : list group :=
  [ grp_entry "adm" 4 [ "debian" ];
    grp_entry "adm" 4 [ "debian" ] ].


Definition root_account : passwd :=
  {| pw_name := "root"; pw_passwd := "x"; pw_uid := 0; pw_gid := 0;
     pw_gecos := "root"; pw_dir := "/root"; pw_shell := "/bin/bash" |}.

(** Two creation facilities: one that adds the account [tot], one that
    leaves the directory as it was. *)
Definition useradd_works (line : string) (db : list passwd) : list passwd :=
  (db ++ [ account "tot" "/bin/bash" ])%list.

Definition useradd_fails (line : string) (db : list passwd) : list passwd := db.

(** The board as shipped, seen by root, with an operator's answer waiting. *)
Definition board (answer : string)
    (facility : string -> list passwd -> list passwd) : world :=
  {| euid := 0; passwd_db := [ root_account; debian ];
     group_db := some_groups; stdin := [ answer ]; shell := facility |}.

(** The same board seen by the unprivileged user. *)
Definition board_as_debian : world :=
  {| euid := 1000; passwd_db := [ root_account; debian ];
     group_db := some_groups; stdin := [ "y" ]; shell := useradd_works |}.

(** A board whose reference account is in no supplementary group. *)
Definition bare_board : world :=
  {| euid := 0; passwd_db := [ root_account; debian ];
     group_db := [ grp_entry "debian" 1000 [ "debian" ];
                   grp_entry "tty" 5 [ "root" ] ];
     stdin := [ "n" ]; shell := useradd_works |}.

(** The call of the script's header. *)
Definition args_tot : Args :=
  {| clone_user := "debian"; new_user := "tot";
     full_name := Some "Takeoff Technical" |}.

Definition args_plain : Args :=
  {| clone_user := "debian"; new_user := "tot"; full_name := None |}.

Definition args_blank_name : Args :=
  {| clone_user := "debian"; new_user := "tot";
     full_name := Some EmptyString |}.

Definition args_ghost : Args :=
  {| clone_user := "ghost"; new_user := "tot"; full_name := None |}.

Definition args_taken : Args :=
  {| clone_user := "debian"; new_user := "root"; full_name := None |}.

Definition args_ghost_taken : Args :=
  {| clone_user := "ghost"; new_user := "root"; full_name := None |}.


(** A call that names the reference account as the account to create. *)
Definition args_same_name : Args :=
  {| clone_user := "debian"; new_user := "debian"; full_name := None |}.

(** * Properties *)

(** ** Membership tests *)

Lemma str_in_In (x : string) (l : list string) :
  str_in x l = true <-> In x l.
Proof.
  unfold str_in. rewrite existsb_exists. split.
  - intros [y [Hy E]]. apply String.eqb_eq in E. now subst.
  - intros H. exists x. split; [assumption | apply String.eqb_refl].
Qed.

Lemma keeps_spec (u : passwd) (g : group) :
  keeps u g = true <->
  In (pw_name u) (gr_mem g) /\ gr_name g <> pw_name u.
Proof.
  unfold keeps. rewrite andb_true_iff, negb_true_iff, str_in_In.
  rewrite String.eqb_neq. intuition congruence.
Qed.

(** ** The derivation loop *)

Section Derivation.

Variable u : passwd.

(** The loop only ever extends the list it was started with. *)
Lemma loop_accumulates (gs : list group) (acc : list string) :
  fold_left (loop_body u) gs acc =
  (acc ++ map gr_name (filter (keeps u) gs))%list.
Proof.
  revert acc. induction gs as [|g gs IH]; intros acc; simpl.
  - now rewrite app_nil_r.
  - rewrite IH. unfold loop_body. destruct (keeps u g); simpl.
    + now rewrite <- app_assoc.
    + reflexivity.
Qed.

Lemma derive_groups_filter (gs : list group) :
  derive_groups u gs = map gr_name (filter (keeps u) gs).
Proof. unfold derive_groups. now rewrite loop_accumulates. Qed.

Lemma NoDup_names_filter (f : group -> bool) (gs : list group) :
  NoDup (map gr_name gs) -> NoDup (map gr_name (filter f gs)).
Proof.
  induction gs as [|g gs IH]; simpl; intros H; [constructor|].
  inversion H as [|? ? Hnot Hrest]; subst.
  destruct (f g); simpl; [constructor|]; auto.
  intros Hin. apply Hnot. apply in_map_iff in Hin.
  destruct Hin as [g' [E Hg']]. apply filter_In in Hg'.
  apply in_map_iff. exists g'. tauto.
Qed.

Lemma derive_groups_empty (gs : list group) :
  (forall g, In g gs ->
     In (pw_name u) (gr_mem g) -> gr_name g = pw_name u) ->
  derive_groups u gs = [].
Proof.
  intros H. rewrite derive_groups_filter.
  induction gs as [|g gs IH]; simpl; [reflexivity|].
  destruct (keeps u g) eqn:K.
  - apply keeps_spec in K. destruct K as [M N].
    elim N. apply H; [now left | assumption].
  - apply IH. intros g' Hg'. apply H. now right.
Qed.

End Derivation.

(** C1: for every group directory [G] and source account [S], a name is in
    the derived group list exactly when it is the name of a group record of
    [G] that lists [S]'s account name among its members and whose name
    differs from [S]'s account name. *)
Theorem derive_groups_exact (S : passwd) (G : list group) (n : string) :
  In n (derive_groups S G) <->
  exists g, In g G /\ gr_name g = n /\
            In (pw_name S) (gr_mem g) /\ gr_name g <> pw_name S.
Proof.
  rewrite derive_groups_filter, in_map_iff. split.
  - intros [g [E Hg]]. apply filter_In in Hg. destruct Hg as [Hg K].
    apply keeps_spec in K. exists g. tauto.
  - intros [g [Hg [E K]]]. exists g. split; [assumption|].
    apply filter_In. split; [assumption|]. now apply keeps_spec.
Qed.

Lemma derive_groups_exact_witness :
  In "dialout" (derive_groups debian some_groups).
Proof.
  apply (proj2 (derive_groups_exact debian some_groups "dialout")).
  exists (grp_entry "dialout" 20 [ "root"; "debian" ]).
  simpl. repeat split; auto; discriminate.
Defined.

(** C2, as stated, fails: a directory with two records of one name gives a
    derived list that holds the name twice. *)
Lemma derive_groups_duplicates :
  ~ (NoDup (derive_groups debian doubled_groups) /\
     ~ In (pw_name debian) (derive_groups debian doubled_groups)).
Proof.
  intros [H _]. vm_compute in H.
  inversion H as [|? ? Hnot _]. apply Hnot. now left.
Qed.

(** C2, amended: the derived list never holds the source account's name,
    and it is free of duplicates whenever no two records of the group
    directory share a name. *)
Theorem derive_groups_invariant (S : passwd) (G : list group) :
  (NoDup (map gr_name G) -> NoDup (derive_groups S G)) /\
  ~ In (pw_name S) (derive_groups S G).
Proof.
  split.
  - intros H. rewrite derive_groups_filter. now apply NoDup_names_filter.
  - intros H. rewrite derive_groups_filter in H.
    apply in_map_iff in H. destruct H as [g [E K]].
    apply filter_In in K. destruct K as [_ K].
    apply keeps_spec in K. destruct K as [_ N]. contradiction.
Qed.

Lemma derive_groups_invariant_witness :
  NoDup (derive_groups debian some_groups) /\
  ~ In (pw_name debian) (derive_groups debian some_groups).
Proof.
  destruct (derive_groups_invariant debian some_groups) as [H1 H2].
  split; [apply H1 | exact H2].
  simpl. repeat constructor; simpl; intuition discriminate.
Defined.

(** ** Every run has one of the seven shapes *)

Ltac run_script :=
  unfold run, main, os_geteuid, pwd_getpwnam, grp_getgrall, stderr_write,
    print, sys_exit, input, os_system, read_cmd, cmd_append,
    assign_clone_user, assign_new_user, assign_clone_groups, assign_cmd,
    assign_choice;
  cbv [Py.bind Py.ret Py.emit Py.world_of Py.vars Py.set_world Py.set_vars
       Py.exit Py.raise the_world the_globals].

Lemma run_Runs (a : Args) (w : world) : Runs a w (run a w).
Proof.
  destruct (Z.eqb_spec (euid w) 0) as [E|E].
  - destruct (lookup (clone_user a) (passwd_db w)) as [u|] eqn:L1.
    + destruct (lookup (new_user a) (passwd_db w)) as [v|] eqn:L2.
      * run_script. rewrite E. simpl. rewrite L1. simpl. rewrite L2. simpl.
        now apply R_target_exists.
      * assert (G : gates_passed a w u) by (repeat split; assumption).
        destruct a as [src tgt fn]. simpl in L1, L2.
        run_script. rewrite E. simpl. rewrite L1. simpl. rewrite L2. simpl.
        destruct (stdin w) as [|choice rest] eqn:I.
        { destruct fn as [[|c r]|]; simpl; rewrite I; simpl;
            exact (R_end_of_input _ w u G I). }
        destruct (affirmative choice) eqn:A.
        2:{ destruct fn as [[|c r]|]; simpl; rewrite I; simpl; rewrite A; simpl;
              exact (R_cancelled _ w u choice rest G I A). }
        destruct fn as [[|c r]|]; simpl; rewrite I; simpl; rewrite A; simpl;
          match goal with
          | |- context [Getpwnam tgt (lookup tgt ?db)] =>
              destruct (lookup tgt db) as [v|] eqn:L3
          end; simpl;
          solve [ exact (R_created _ w u choice rest v G I A L3)
                | exact (R_failed _ w u choice rest G I A L3) ].
    + run_script. rewrite E. simpl. rewrite L1. simpl.
      now apply R_no_source.
  - run_script. simpl.
    destruct (Z.eqb_spec (euid w) 0) as [E'|_]; [contradiction|].
    simpl. now apply R_unprivileged.
Qed.

(** Case analysis on the shape of a run, keeping the equation. *)
Ltac shapes a w :=
  let R := fresh "R" in
  pose proof (run_Runs a w) as R;
  inversion R;
  match goal with
  | H : _ = run a w |- _ => try rewrite <- H in *; clear H R
  end;
  unfold gates_passed in *;
  repeat match goal with
         | H : _ /\ _ |- _ => destruct H
         end;
  try congruence.

Section Shapes.

Variables (a : Args) (w : world).

Lemma run_unprivileged :
  euid w <> 0 ->
  run a w = {| outcome := SysExit 1; final := start w;
               trace := [ Geteuid (euid w); Stderr msg_privilege ] |}.
Proof. intros N. shapes a w. Qed.

Lemma run_no_source :
  euid w = 0 ->
  lookup (clone_user a) (passwd_db w) = None ->
  run a w = {| outcome := SysExit 1; final := start w;
               trace := [ Geteuid 0;
                          Getpwnam (clone_user a) None;
                          Stderr (msg_no_source (clone_user a)) ] |}.
Proof. intros E L. shapes a w. Qed.

Lemma run_target_exists (u v : passwd) :
  euid w = 0 ->
  lookup (clone_user a) (passwd_db w) = Some u ->
  lookup (new_user a) (passwd_db w) = Some v ->
  trace (run a w) = [ Geteuid 0;
                      Getpwnam (clone_user a) (Some u);
                      Getpwnam (new_user a) (Some v);
                      Stderr (msg_exists (new_user a)) ] /\
  outcome (run a w) = SysExit 1.
Proof.
  intros E L1 L2. shapes a w.
  simpl. split; congruence.
Qed.

(** The command is built exactly in the runs that pass the three gates. *)
Lemma built_after_gates (u : passwd) :
  gates_passed a w u ->
  built_cmd (run a w) = Some (build_cmd a u (derive_groups u (group_db w))) /\
  derived (run a w) = Some (derive_groups u (group_db w)).
Proof.
  intros G. shapes a w;
    unfold built_cmd, derived; simpl; split; congruence.
Qed.

Lemma built_inv (cmd : list string) :
  built_cmd (run a w) = Some cmd ->
  exists u, gates_passed a w u /\
            cmd = build_cmd a u (derive_groups u (group_db w)).
Proof.
  intros B. shapes a w;
    unfold built_cmd in B; simpl in B; try discriminate;
    injection B as <-; exists u; repeat split; assumption.
Qed.

End Shapes.

(** ** Affirmative answers *)

Lemma lower_ascii_letter (c x : ascii) :
  In x [ "y"; "e"; "s" ]%char ->
  lower_ascii c = x ->
  c = x \/ c = ascii_of_nat (nat_of_ascii x - 32).
Proof.
  intros Hx.
  destruct Hx as [<-|[<-|[<-|[]]]];
    destruct c as [[] [] [] [] [] [] [] []]; vm_compute; intros H;
    first [ discriminate H | now left | now right ].
Qed.

Lemma affirmative_says_yes (choice : string) :
  affirmative choice = true <-> says_yes choice.
Proof.
  unfold affirmative, says_yes. rewrite str_in_In. split.
  - intros [H|[H|[]]].
    + destruct choice as [|c1 [|c2 r]]; simpl in H; try discriminate.
      injection H as H.
      symmetry in H. apply lower_ascii_letter in H; [|simpl; tauto].
      destruct H as [->| ->]; simpl; tauto.
    + destruct choice as [|c1 [|c2 [|c3 [|c4 r]]]]; simpl in H;
        try discriminate.
      injection H as H1 H2 H3.
      symmetry in H1, H2, H3.
      apply lower_ascii_letter in H1; [|simpl; tauto].
      apply lower_ascii_letter in H2; [|simpl; tauto].
      apply lower_ascii_letter in H3; [|simpl; tauto].
      destruct H1 as [->| ->], H2 as [->| ->], H3 as [->| ->]; simpl; tauto.
  - intros H. simpl in H.
    repeat (destruct H as [<-|H]; [vm_compute; tauto|]).
    contradiction.
Qed.

(** ** The privilege gate *)

(** C5: every run starts with the privilege check, before any directory is
    consulted; a run without administrative privilege stops right there
    with status 1, having written the privilege message on the error
    stream and having looked up no account and no group. *)
Theorem privilege_checked_first (a : Args) (w : world) :
  (exists rest, trace (run a w) = Geteuid (euid w) :: rest) /\
  (euid w <> 0 ->
   exit_status (run a w) = 1 /\
   trace (run a w) = [ Geteuid (euid w); Stderr msg_privilege ] /\
   existsb is_lookup (trace (run a w)) = false).
Proof.
  split.
  - shapes a w; simpl; eexists;
      repeat match goal with E : euid w = 0 |- _ => rewrite E end;
      reflexivity.
  - intros N. rewrite (run_unprivileged a w N). now compute.
Qed.

Lemma privilege_checked_first_witness :
  exit_status (run args_tot board_as_debian) = 1 /\
  trace (run args_tot board_as_debian) =
    [ Geteuid 1000; Stderr msg_privilege ] /\
  existsb is_lookup (trace (run args_tot board_as_debian)) = false.
Proof.
  apply (proj2 (privilege_checked_first args_tot board_as_debian)).
  simpl. discriminate.
Defined.

(** ** The source gate *)

(** C6, as stated, fails: without privilege the run stops before it looks
    the source up, so an absent source is never reported. *)
Lemma missing_source_unreported_without_privilege :
  lookup (clone_user args_ghost) (passwd_db board_as_debian) = None /\
  ~ In (Stderr (msg_no_source (clone_user args_ghost)))
       (trace (run args_ghost board_as_debian)).
Proof.
  split; [reflexivity|].
  vm_compute. intros [H|[H|[]]]; discriminate H.
Qed.

(** C6, amended: a run whose source account name is absent from the
    account directory exits with status 1 and neither derives groups nor
    builds a command; when it has administrative privilege, what it wrote
    on the error stream is the source-not-found message naming the
    source. *)
Theorem missing_source_stops_run (a : Args) (w : world) :
  lookup (clone_user a) (passwd_db w) = None ->
  exit_status (run a w) = 1 /\
  existsb is_getgrall (trace (run a w)) = false /\
  derived (run a w) = None /\
  built_cmd (run a w) = None /\
  (euid w = 0 ->
   stderr_of (trace (run a w)) = [ msg_no_source (clone_user a) ]).
Proof.
  intros L. destruct (Z.eq_dec (euid w) 0) as [E|N].
  - rewrite (run_no_source a w E L). now compute.
  - rewrite (run_unprivileged a w N). compute. tauto.
Qed.

Lemma missing_source_stops_run_witness :
  exit_status (run args_ghost (board "y" useradd_works)) = 1 /\
  existsb is_getgrall (trace (run args_ghost (board "y" useradd_works)))
    = false /\
  derived (run args_ghost (board "y" useradd_works)) = None /\
  built_cmd (run args_ghost (board "y" useradd_works)) = None /\
  stderr_of (trace (run args_ghost (board "y" useradd_works))) =
    [ msg_no_source "ghost" ].
Proof.
  pose proof (missing_source_stops_run args_ghost (board "y" useradd_works)
                eq_refl) as [H1 [H2 [H3 [H4 H5]]]].
  exact (conj H1 (conj H2 (conj H3 (conj H4 (H5 eq_refl))))).
Defined.

(** ** The target gate *)

(** C7, as stated, fails: a run without privilege, and a privileged run
    whose source is absent, stop before the target is looked up, so no
    already-exists message is printed although the target is present. *)
Lemma existing_target_unreported_behind_earlier_gates :
  (lookup (new_user args_taken) (passwd_db board_as_debian)
     = Some root_account /\
   ~ In (Stderr (msg_exists (new_user args_taken)))
        (trace (run args_taken board_as_debian))) /\
  (lookup (new_user args_ghost_taken) (passwd_db (board "y" useradd_works))
     = Some root_account /\
   ~ In (Stderr (msg_exists (new_user args_ghost_taken)))
        (trace (run args_ghost_taken (board "y" useradd_works)))).
Proof.
  split; (split; [reflexivity|]); vm_compute;
    intros H; repeat (destruct H as [H|H]; [discriminate H|]); exact H.
Qed.

(** C7, amended: a run whose target account name is already present in the
    account directory exits with status 1 and neither prompts for
    confirmation nor invokes the creation facility; when it has
    administrative privilege and its source account exists, what it wrote
    on the error stream is the already-exists message naming the target. *)
Theorem existing_target_stops_run (a : Args) (w : world) (v : passwd) :
  lookup (new_user a) (passwd_db w) = Some v ->
  exit_status (run a w) = 1 /\
  existsb is_input (trace (run a w)) = false /\
  existsb is_system (trace (run a w)) = false /\
  (euid w = 0 ->
   forall u, lookup (clone_user a) (passwd_db w) = Some u ->
   stderr_of (trace (run a w)) = [ msg_exists (new_user a) ]).
Proof.
  intros L. destruct (Z.eq_dec (euid w) 0) as [E|N].
  - destruct (lookup (clone_user a) (passwd_db w)) as [u|] eqn:L1.
    + destruct (run_target_exists a w u v E L1 L) as [T O].
      unfold exit_status. rewrite O, T. simpl. repeat split. 
    + rewrite (run_no_source a w E L1). compute.
      repeat split. intros _ u Hu. discriminate Hu.
  - rewrite (run_unprivileged a w N). compute. tauto.
Qed.

Lemma existing_target_stops_run_witness :
  exit_status (run args_taken (board "y" useradd_works)) = 1 /\
  existsb is_input (trace (run args_taken (board "y" useradd_works)))
    = false /\
  existsb is_system (trace (run args_taken (board "y" useradd_works)))
    = false /\
  stderr_of (trace (run args_taken (board "y" useradd_works))) =
    [ msg_exists "root" ].
Proof.
  pose proof (existing_target_stops_run args_taken (board "y" useradd_works)
                root_account eq_refl) as [H1 [H2 [H3 H4]]].
  exact (conj H1 (conj H2 (conj H3 (H4 eq_refl debian eq_refl)))).
Defined.

(** ** Confirmation *)

(** C8: whenever the operator's answer to the confirmation prompt is not
    "y" or "yes" in some mix of upper and lower case, the run prints the
    cancellation message as its last output, never invokes the creation
    facility, and exits with status 0. *)
Theorem non_affirmative_cancels (a : Args) (w : world) (choice : string) :
  In (Input msg_prompt (Some choice)) (trace (run a w)) ->
  ~ says_yes choice ->
  exit_status (run a w) = 0 /\
  (exists before,
     stdout_of (trace (run a w)) = (before ++ [ printed msg_cancelled ])%list) /\
  existsb is_system (trace (run a w)) = false.
Proof.
  intros HI HN. rewrite <- affirmative_says_yes in HN.
  apply not_true_is_false in HN.
  shapes a w; simpl in HI;
    repeat match goal with
           | H : _ \/ _ |- _ => destruct H as [H|H]
           | H : False |- _ => contradiction
           | H : @eq event _ _ |- _ =>
               first [ discriminate H | injection H as -> ]
           end;
    try congruence.
  split; [reflexivity|]. split; [|reflexivity].
  eexists (cons _ nil). reflexivity.
Qed.

Lemma non_affirmative_cancels_witness :
  exit_status (run args_tot (board "n" useradd_works)) = 0 /\
  (exists before,
     stdout_of (trace (run args_tot (board "n" useradd_works))) =
     (before ++ [ printed msg_cancelled ])%list) /\
  existsb is_system (trace (run args_tot (board "n" useradd_works))) = false.
Proof.
  apply (non_affirmative_cancels args_tot (board "n" useradd_works) "n").
  - vm_compute. tauto.
  - rewrite <- affirmative_says_yes. vm_compute. discriminate.
Defined.

(** ** Execution and the post-check *)

(** Whenever the creation facility was invoked and the target cannot be
    found afterwards, the run exits with status 1; the failure message goes
    to standard output, and nothing is written on the error stream. *)
Lemma failed_creation_report (a : Args) (w : world) (u : passwd)
    (choice : string) (rest : list string) :
  gates_passed a w u ->
  stdin w = choice :: rest ->
  affirmative choice = true ->
  lookup (new_user a)
    (shell w (command_line a u (group_db w)) (passwd_db w)) = None ->
  exit_status (run a w) = 1 /\
  stderr_of (trace (run a w)) = [] /\
  stdout_of (trace (run a w)) =
    [ printed (msg_command (command_line a u (group_db w)));
      printed (msg_failed (new_user a)) ].
Proof.
  intros G I A L. shapes a w.
  assert (u0 = u) as -> by congruence.
  repeat split.
Qed.

(** C3, on the board where the creation facility leaves the directory
    unchanged: after the command ran, the post-check lookup of [tot] fails
    and the run exits with status 1, but the creation-failed message is
    written on standard output and the error stream stays empty. *)
Theorem failed_creation_goes_to_stdout :
  skipn 5 (trace (run args_tot (board "y" useradd_fails))) =
    [ Input msg_prompt (Some "y");
      System (command_line args_tot debian some_groups);
      Getpwnam "tot" None;
      Stdout (printed (msg_failed "tot")) ] /\
  exit_status (run args_tot (board "y" useradd_fails)) = 1 /\
  stderr_of (trace (run args_tot (board "y" useradd_fails))) = [].
Proof. vm_compute. repeat split. Qed.

(** ** The built command *)

Lemma flag_value_here (f v : string) (pre post : list string) :
  flag_value f v (pre ++ f :: v :: post) = true.
Proof.
  induction pre as [|x pre IH].
  - simpl. now rewrite !String.eqb_refl.
  - destruct pre as [|y pre]; simpl in *; rewrite IH; apply orb_true_r.
Qed.

(** C9: in every run that passes the validation gates, the built command
    is [useradd], the shell flag with the source account's shell path, the
    create-home flag, the user-group flag, the groups flag with the derived
    groups joined by commas as one argument, and the target name, in that
    order, followed only by the comment arguments of the display name. *)
Theorem built_command_layout (a : Args) (w : world) (u : passwd) :
  gates_passed a w u ->
  derived (run a w) = Some (derive_groups u (group_db w)) /\
  built_cmd (run a w) =
    Some ([ "useradd"; "--shell"; pw_shell u; "--create-home";
            "--user-group"; "--groups";
            join "," (derive_groups u (group_db w)); new_user a ]
          ++ comment_args (full_name a))%list.
Proof.
  intros G. destruct (built_after_gates a w u G) as [B D].
  split; assumption.
Qed.

Lemma built_command_layout_witness :
  derived (run args_plain (board "n" useradd_works)) =
    Some [ "adm"; "dialout" ] /\
  built_cmd (run args_plain (board "n" useradd_works)) =
    Some [ "useradd"; "--shell"; "/bin/bash"; "--create-home";
           "--user-group"; "--groups"; "adm,dialout"; "tot" ].
Proof.
  exact (built_command_layout args_plain (board "n" useradd_works) debian
           (conj eq_refl (conj eq_refl eq_refl))).
Defined.

(** C4, as stated, fails: the argument after the comment flag is the
    display name wrapped in double-quote characters, not the display name
    itself; and an empty display name adds no comment field at all. *)
Lemma comment_value_differs_from_display_name :
  (full_name args_tot = Some "Takeoff Technical" /\
   exists cmd,
     built_cmd (run args_tot (board "n" useradd_works)) = Some cmd /\
     flag_value "--comment" "Takeoff Technical" cmd = false) /\
  (full_name args_blank_name = Some EmptyString /\
   exists cmd,
     built_cmd (run args_blank_name (board "n" useradd_works)) = Some cmd /\
     has_flag "--comment" cmd = false).
Proof.
  split; (split; [reflexivity|]); eexists; split;
    solve [ vm_compute; reflexivity ].
Qed.

(** C4, amended: whenever a run builds the command and a non-empty display
    name was supplied, the command ends with the comment flag followed by
    one argument: the display name between two double-quote characters. *)
Theorem comment_field_is_quoted_name (a : Args) (w : world)
    (cmd : list string) (n : string) :
  built_cmd (run a w) = Some cmd ->
  full_name a = Some n ->
  n <> EmptyString ->
  flag_value "--comment" (quoted n) cmd = true /\
  exists front,
    length front = 8%nat /\
    cmd = (front ++ [ "--comment"; quoted n ])%list.
Proof.
  intros B F N. apply built_inv in B. destruct B as [u [_ ->]].
  unfold build_cmd, comment_args. rewrite F.
  destruct n as [|c r]; [contradiction|]. cbn [truthy text].
  split.
  - apply flag_value_here.
  - eexists. split; [|reflexivity]. reflexivity.
Qed.

Lemma comment_field_is_quoted_name_witness :
  flag_value "--comment" (quoted "Takeoff Technical")
    (base_cmd debian [ "adm"; "dialout" ] "tot" ++
     [ "--comment"; quoted "Takeoff Technical" ]) = true /\
  exists front,
    length front = 8%nat /\
    (base_cmd debian [ "adm"; "dialout" ] "tot" ++
     [ "--comment"; quoted "Takeoff Technical" ])%list =
    (front ++ [ "--comment"; quoted "Takeoff Technical" ])%list.
Proof.
  apply (comment_field_is_quoted_name args_tot (board "n" useradd_works)).
  - reflexivity.
  - reflexivity.
  - discriminate.
Defined.

(** C10: in every run that builds the command while the source account is
    listed as a member of no group except, possibly, the group named after
    it, the derived group list is empty and the command still carries the
    groups flag, directly followed by the empty string as its argument. *)
Theorem empty_groups_keep_flag (a : Args) (w : world) (u : passwd)
    (cmd : list string) :
  built_cmd (run a w) = Some cmd ->
  lookup (clone_user a) (passwd_db w) = Some u ->
  (forall g, In g (group_db w) ->
     In (pw_name u) (gr_mem g) -> gr_name g = pw_name u) ->
  derived (run a w) = Some [] /\
  nth_error cmd 5 = Some "--groups" /\
  nth_error cmd 6 = Some EmptyString /\
  flag_value "--groups" EmptyString cmd = true.
Proof.
  intros B L H. apply built_inv in B. destruct B as [u' [G ->]].
  assert (u' = u) as -> by (destruct G as [_ [L' _]]; congruence).
  destruct (built_after_gates a w u G) as [_ D].
  rewrite (derive_groups_empty u _ H) in *.
  split; [assumption|].
  split; [reflexivity|]. split; [reflexivity|].
  unfold build_cmd, base_cmd.
  apply (flag_value_here "--groups" EmptyString
           [ "useradd"; "--shell"; pw_shell u; "--create-home";
             "--user-group" ]).
Qed.

Lemma empty_groups_keep_flag_witness :
  derived (run args_plain bare_board) = Some [] /\
  nth_error (base_cmd debian [] "tot") 5 = Some "--groups" /\
  nth_error (base_cmd debian [] "tot") 6 = Some EmptyString /\
  flag_value "--groups" EmptyString (base_cmd debian [] "tot") = true.
Proof.
  apply (empty_groups_keep_flag args_plain bare_board debian).
  - reflexivity.
  - reflexivity.
  - intros g [<-|[<-|[]]]; simpl.
    + intros _. reflexivity.
    + intros [H|[]]. discriminate H.
Defined.

(** * Further properties of the script *)

(** ** Lookups *)

(** A record found under a name carries that name. *)
Lemma lookup_name (name : string) (db : list passwd) (v : passwd) :
  lookup name db = Some v -> pw_name v = name.
Proof.
  unfold lookup. intros H. apply find_some in H.
  destruct H as [_ E]. now apply String.eqb_eq in E.
Qed.

(** ** The successful run *)



(** X2: a run that invoked the creation facility and exited with status 0
    leaves an account directory in which the target is found under its
    name, and that record is the value of [new_user]. *)
Theorem zero_exit_after_execution_means_account_exists
    (a : Args) (w : world) :
  existsb is_system (trace (run a w)) = true ->
  exit_status (run a w) = 0 ->
  exists v,
    lookup (new_user a) (passwd_db (the_world (final (run a w)))) = Some v /\
    pw_name v = new_user a /\
    v_new_user (the_globals (final (run a w))) = Some v.
Proof.
  intros S Z. shapes a w; try discriminate.
  exists v. repeat split; try assumption.
  eapply lookup_name; eassumption.
Qed.

Lemma zero_exit_after_execution_means_account_exists_witness :
  exists v,
    lookup (new_user args_tot)
      (passwd_db (the_world (final (run args_tot (board "y" useradd_works)))))
      = Some v /\
    pw_name v = new_user args_tot /\
    v_new_user (the_globals (final (run args_tot (board "y" useradd_works))))
      = Some v.
Proof.
  exact (zero_exit_after_execution_means_account_exists args_tot
           (board "y" useradd_works) eq_refl eq_refl).
Defined.

(** X3: running the script again with the same arguments, in the world a
    successful run left behind, stops at a gate: it exits with status 1
    without prompting and without invoking the creation facility. *)
Theorem rerun_stops_at_gate (a : Args) (w : world) :
  existsb is_system (trace (run a w)) = true ->
  exit_status (run a w) = 0 ->
  exit_status (run a (the_world (final (run a w)))) = 1 /\
  existsb is_input (trace (run a (the_world (final (run a w))))) = false /\
  existsb is_system (trace (run a (the_world (final (run a w))))) = false.
Proof.
  intros S Z. shapes a w; try discriminate.
  cbn [final the_world].
  set (w' := shell_ran (read_line w rest) (command_line a u (group_db w))).
  assert (E' : euid w' = 0) by assumption.
  assert (L' : lookup (new_user a) (passwd_db w') = Some v) by assumption.
  destruct (lookup (clone_user a) (passwd_db w')) as [u'|] eqn:L1.
  - destruct (run_target_exists a w' u' v E' L1 L') as [T O].
    unfold exit_status. rewrite O, T. repeat split.
  - rewrite (run_no_source a w' E' L1). repeat split.
Qed.

Lemma rerun_stops_at_gate_witness :
  exit_status
    (run args_tot
       (the_world (final (run args_tot (board "y" useradd_works))))) = 1 /\
  existsb is_input
    (trace (run args_tot
              (the_world (final (run args_tot (board "y" useradd_works))))))
    = false /\
  existsb is_system
    (trace (run args_tot
              (the_world (final (run args_tot (board "y" useradd_works))))))
    = false.
Proof.
  exact (rerun_stops_at_gate args_tot (board "y" useradd_works)
           eq_refl eq_refl).
Defined.

(** ** What reaches the shell *)

(** X4: the creation facility is invoked at most once, and only after the
    operator gave one of the affirmative spellings at the prompt; the line
    it receives is the built command joined by single spaces. *)
Theorem creation_only_after_yes (a : Args) (w : world) (line : string) :
  In (System line) (trace (run a w)) ->
  filter is_system (trace (run a w)) = [ System line ] /\
  exists cmd choice,
    built_cmd (run a w) = Some cmd /\
    line = join " " cmd /\
    In (Input msg_prompt (Some choice)) (trace (run a w)) /\
    says_yes choice.
Proof.
  intros H.
  shapes a w; simpl in H;
    repeat match goal with
           | H : _ \/ _ |- _ => destruct H as [H|H]
           | H : False |- _ => contradiction
           | H : @eq event _ _ |- _ =>
               first [ discriminate H | injection H as <- ]
           end;
    (split; [reflexivity|]);
    exists (build_cmd a u (derive_groups u (group_db w))), choice;
    (split; [reflexivity|]); (split; [reflexivity|]);
    (split; [simpl; tauto | now apply affirmative_says_yes]).
Qed.

Lemma creation_only_after_yes_witness :
  filter is_system (trace (run args_tot (board "YES" useradd_fails))) =
    [ System (command_line args_tot debian some_groups) ] /\
  exists cmd choice,
    built_cmd (run args_tot (board "YES" useradd_fails)) = Some cmd /\
    command_line args_tot debian some_groups = join " " cmd /\
    In (Input msg_prompt (Some choice))
       (trace (run args_tot (board "YES" useradd_fails))) /\
    says_yes choice.
Proof.
  apply (creation_only_after_yes args_tot (board "YES" useradd_fails)).
  vm_compute. tauto.
Defined.

(** X5: the line handed to the shell is the line that was displayed to the
    operator beforehand, in the "Command to run" message. *)
Theorem executed_line_was_displayed (a : Args) (w : world) (line : string) :
  In (System line) (trace (run a w)) ->
  exists before between after,
    trace (run a w) =
      (before ++ Stdout (printed (msg_command line)) :: between
              ++ System line :: after)%list.
Proof.
  intros H.
  shapes a w; simpl in H;
    repeat match goal with
           | H : _ \/ _ |- _ => destruct H as [H|H]
           | H : False |- _ => contradiction
           | H : @eq event _ _ |- _ =>
               first [ discriminate H | injection H as <- ]
           end;
    eexists [ _; _; _; _ ], [ _ ], [ _; _ ]; reflexivity.
Qed.

Lemma executed_line_was_displayed_witness :
  exists before between after,
    trace (run args_tot (board "y" useradd_works)) =
      (before
       ++ Stdout (printed (msg_command
                             (command_line args_tot debian some_groups)))
          :: between
       ++ System (command_line args_tot debian some_groups) :: after)%list.
Proof.
  apply (executed_line_was_displayed args_tot (board "y" useradd_works)).
  vm_compute. tauto.
Defined.



(** ** End of input at the prompt *)



(** ** Answers *)

(** X8: the answer is compared as typed, without stripping blanks: an
    answer that starts or ends with a space is never affirmative. *)
Theorem padded_answer_is_not_affirmative (choice : string) :
  affirmative (" " ++ choice) = false /\
  affirmative (choice ++ " ") = false.
Proof.
  split; [reflexivity|].
  apply not_true_is_false. intros H. apply affirmative_says_yes in H.
  unfold says_yes in H. simpl in H.
  destruct choice as [|c1 [|c2 [|c3 [|c4 r]]]]; simpl in H;
    repeat (destruct H as [H|H]; [discriminate H|]); exact H.
Qed.

(** ** Source and target of the same name *)

(** X9: when the source and the target are the same name, no command is
    ever built: either the name is unknown and the source gate fails, or it
    is known and the target gate fails (or the privilege gate failed before
    both); the run exits with status 1. *)
Theorem same_name_never_builds (a : Args) (w : world) :
  clone_user a = new_user a ->
  exit_status (run a w) = 1 /\
  built_cmd (run a w) = None /\
  existsb is_system (trace (run a w)) = false.
Proof.
  intros H. shapes a w; repeat split.
Qed.

Lemma same_name_never_builds_witness :
  exit_status
    (run args_same_name (board "y" useradd_works)) = 1 /\
  built_cmd
    (run args_same_name (board "y" useradd_works)) = None /\
  existsb is_system
    (trace (run args_same_name (board "y" useradd_works))) = false.
Proof.
  exact (same_name_never_builds
           args_same_name (board "y" useradd_works) eq_refl).
Defined.

(** ** Streams and exit status *)





(** ** Order of the derived groups *)

(** X12: the derived list keeps the order of the group directory: it is
    the names of the qualifying records, one per record, in the order the
    directory enumerates them; so a directory made of two parts gives the
    groups of the first part followed by those of the second. *)
Theorem derive_groups_directory_order (u : passwd) (gs1 gs2 : list group) :
  derive_groups u (gs1 ++ gs2) =
    (derive_groups u gs1 ++ derive_groups u gs2)%list /\
  derive_groups u gs1 = map gr_name (filter (keeps u) gs1).
Proof.
  rewrite !derive_groups_filter, filter_app, map_app. split; reflexivity.
Qed.

(** ** The line shown and executed *)


